(** * Currency converter backend (server.js): a shallow embedding

    The backend is an Express application with two routes, a fallback
    handler and an error handler.  The handlers are embedded as programs
    of a small effect monad: they read the process environment and the
    clock, write log lines, call the upstream provider through [fetch]
    and answer with one HTTP response (status and JSON body).

    Conventions.
    - A JavaScript string is a [string]; each element stands for one
      UTF-16 code unit, so [String.length] is the [.length] property.
    - A JavaScript number is an IEEE-754 double, a primitive [float].
    - Values handed to [res.json] and values produced by [response.json()]
      are trees of type [Js.value]. *)

From Stdlib Require Import ZArith List String Ascii Bool Lia PrimFloat.
From Stdlib Require Import DecimalString.
Import ListNotations.
Local Open Scope string_scope.
Set Warnings "-register-all,-inexact-float".

(** ** JavaScript values and the operators the handlers use *)
Module Js.

Inductive value : Type :=
| VUndefined
| VNull
| VBool (b : bool)
| VNum (n : float)
| VStr (s : string)
| VArr (items : list value)
| VObj (fields : list (string * value)).

(** An [Error] object, as thrown by [fetch], by the body readers and by
    the runtime ([TypeError]). *)
Record Error : Type := mkError { name : string; message : string }.

(** Completion of an evaluation step: a value or a thrown error. *)
Inductive completion (A : Type) : Type :=
| Normal (a : A)
| Thrown (e : Error).
Arguments Normal {A} a.
Arguments Thrown {A} e.

(** [ToBoolean]: what [!v] and [v || w] test. *)
Definition truthy (v : value) : bool :=
  match v with
  | VUndefined | VNull => false
  | VBool b => b
  | VNum n => negb (is_zero n || is_nan n)
  | VStr s => negb (s =? EmptyString)
  | VArr _ | VObj _ => true
  end.

(** [typeof v]. *)
Definition typeof (v : value) : string :=
  match v with
  | VUndefined => "undefined"
  | VNull => "object"
  | VBool _ => "boolean"
  | VNum _ => "number"
  | VStr _ => "string"
  | VArr _ | VObj _ => "object"
  end.

(** [v.length === n] for a natural number [n]; only strings and arrays
    among these values have a [length]. *)
Definition length_is (v : value) (n : nat) : bool :=
  match v with
  | VStr s => Nat.eqb (String.length s) n
  | VArr items => Nat.eqb (List.length items) n
  | _ => false
  end.

(** [v === 'lit'] for a string literal. *)
Definition strict_eq_str (v : value) (lit : string) : bool :=
  match v with
  | VStr s => s =? lit
  | _ => false
  end.

(** [a || b]. *)
Definition or (a b : value) : value := if truthy a then a else b.

(** The first entry for key [k] of an object's own properties.
    [JSON.parse] keeps one entry per key. *)
Fixpoint lookup (k : string) (fields : list (string * value)) : option value :=
  match fields with
  | [] => None
  | (k', v) :: rest => if k' =? k then Some v else lookup k rest
  end.

(** The own property [k] of an object, [undefined] when it has none. *)
Definition field (fields : list (string * value)) (k : string) : value :=
  match lookup k fields with
  | Some x => x
  | None => VUndefined
  end.

(** The property read [v.k] (or [v['k']]) for the field names the
    handler reads: [result], [error-type], [rates], [base_code] and
    [time_last_update_utc].  None of them is inherited from a prototype,
    so on a boolean, number, string or array the read yields
    [undefined]; on [null] and [undefined] it throws a [TypeError]. *)
Definition get (v : value) (k : string) : completion value :=
  match v with
  | VObj fields => Normal (field fields k)
  | VNull =>
      Thrown (mkError "TypeError"
                ("Cannot read properties of null (reading '" ++ k ++ "')"))
  | VUndefined =>
      Thrown (mkError "TypeError"
                ("Cannot read properties of undefined (reading '" ++ k ++ "')"))
  | _ => Normal VUndefined
  end.

(** [`${v}`] where [v] is a string.  The handler interpolates the base
    currency only after [typeof baseCurrency === 'string'] was checked
    (lemma [valid_code_is_string] below), so no other value reaches it. *)
Definition template (v : value) : string :=
  match v with
  | VStr s => s
  | _ => EmptyString
  end.

(** [`${n}`] for an integral number [n], such as an HTTP status. *)
Definition template_int (n : Z) : string :=
  NilZero.string_of_int (Z.to_int n).

End Js.

(** ** [Date.prototype.toISOString] *)
Module Date.

Local Open Scope Z_scope.

Definition msPerDay : Z := 86400000.

(** One decimal digit, [0 <= d < 10]. *)
Definition digit (d : Z) : ascii := ascii_of_nat (48 + Z.to_nat d).

(** The [w] low decimal digits of [n >= 0], most significant first. *)
Fixpoint pad (w : nat) (n : Z) : string :=
  match w with
  | O => EmptyString
  | S w' => (pad w' (n / 10) ++ String (digit (n mod 10)) EmptyString)%string
  end.

(** Year, month (1..12) and day of month (1..31) of the day number
    [days] counted from 1970-01-01, in the proleptic Gregorian calendar. *)
Definition civil (days : Z) : Z * Z * Z :=
  let z := days + 719468 in
  let era := z / 146097 in
  let doe := z mod 146097 in
  let yoe := (doe - doe / 1460 + doe / 36524 - doe / 146096) / 365 in
  let doy := doe - (365 * yoe + yoe / 4 - yoe / 100) in
  let mp := (5 * doy + 2) / 153 in
  let d := doy - (153 * mp + 2) / 5 + 1 in
  let m := if mp <? 10 then mp + 3 else mp - 9 in
  let y := yoe + era * 400 + (if m <=? 2 then 1 else 0) in
  (y, m, d).

(** The year: four digits for 0..9999, otherwise a sign and six digits. *)
Definition year_string (y : Z) : string :=
  let sign : string := if y <? 0 then "-"%string else "+"%string in
  if (0 <=? y) && (y <=? 9999) then pad 4 y
  else (sign ++ pad 6 (Z.abs y))%string.

(** [new Date(t).toISOString()] for a time value [t], milliseconds since
    the epoch.  The clock's time value is always a valid one, so the
    [RangeError] of an invalid date cannot arise from [new Date()]. *)
Definition toISOString (t : Z) : string :=
  let '(y, m, d) := civil (t / msPerDay) in
  let ms := t mod msPerDay in
  (year_string y ++ "-" ++ pad 2 m ++ "-" ++ pad 2 d ++ "T"
   ++ pad 2 (ms / 3600000) ++ ":" ++ pad 2 (ms / 60000 mod 60) ++ ":"
   ++ pad 2 (ms / 1000 mod 60) ++ "." ++ pad 3 (ms mod 1000) ++ "Z")%string.

End Date.

(** ** The node-fetch interface *)
Module Fetch.

(** The second argument of [fetch(url, init)]. *)
Record init : Type := mkInit {
  method : string;
  headers : list (string * string)
}.

(** A resolved [fetch]: the status line, and what the two body readers
    [response.text()] and [response.json()] complete with. *)
Record response : Type := mkResponse {
  status : Z;
  statusText : string;
  text : Js.completion string;
  json : Js.completion Js.value
}.

(** [response.ok]: the status is in the range 200..299. *)
Definition ok (r : response) : bool :=
  (200 <=? status r)%Z && (status r <? 300)%Z.

End Fetch.

(** ** The world a request runs in, and what it leaves behind *)

(** [process.env], the upstream provider as [fetch] sees it, and the
    clock read by [new Date()]. *)
Record World : Type := mkWorld {
  env : string -> option string;
  upstream : string -> Fetch.init -> Js.completion Fetch.response;
  now : Z
}.

Inductive Stream : Type := Stdout | Stderr.

(** One argument of a [console.log] or [console.error] call. *)
Inductive LogArg : Type :=
| LStr (s : string)
| LVal (v : Js.value)
| LErr (e : Js.Error).

(** The observable actions of a handler besides its HTTP response. *)
Inductive Event : Type :=
| Log (to : Stream) (args : list LogArg)
| Outbound (url : string) (init : Fetch.init).

(** What [res.status(code).json(body)] sends; [res.json(body)] alone
    sends status 200. *)
Record HttpResponse : Type := mkHttp {
  code : Z;
  body : Js.value
}.

(** ** The effect monad: read the world, write events, complete or throw *)
Definition Eff (A : Type) : Type := World -> list Event * Js.completion A.

Definition ret {A} (a : A) : Eff A := fun _ => ([], Js.Normal a).

Definition bind {A B} (c : Eff A) (k : A -> Eff B) : Eff B :=
  fun w =>
    match c w with
    | (t, Js.Normal a) => let (t', r) := k a w in ((t ++ t')%list, r)
    | (t, Js.Thrown e) => (t, Js.Thrown e)
    end.

Notation "x <- c ;; k" := (bind c (fun x => k))
  (at level 61, c at next level, right associativity).
Notation "c ;;; k" := (bind c (fun _ => k))
  (at level 61, right associativity).

(** [try { body } catch (error) { handler }]. *)
Definition try_catch {A} (body : Eff A) (handler : Js.Error -> Eff A) : Eff A :=
  fun w =>
    match body w with
    | (t, Js.Normal a) => (t, Js.Normal a)
    | (t, Js.Thrown e) => let (t', r) := handler e w in ((t ++ t')%list, r)
    end.

(** [await p] for a promise that settles as [c], and the evaluation of
    an expression that completes as [c]. *)
Definition await {A} (c : Js.completion A) : Eff A := fun _ => ([], c).

Definition emit (e : Event) : Eff unit := fun _ => ([e], Js.Normal tt).

Definition console_log (args : list LogArg) : Eff unit := emit (Log Stdout args).
Definition console_error (args : list LogArg) : Eff unit := emit (Log Stderr args).

(** [process.env.NAME]: a string, or [undefined] when the variable is
    not set. *)
Definition env_value (w : World) (name : string) : Js.value :=
  match env w name with
  | Some s => Js.VStr s
  | None => Js.VUndefined
  end.

Definition getenv (name : string) : Eff Js.value :=
  fun w => ([], Js.Normal (env_value w name)).

(** [await fetch(url, init)]: one outbound request. *)
Definition fetch (url : string) (i : Fetch.init) : Eff Fetch.response :=
  fun w => ([Outbound url i], upstream w url i).

(** [new Date().toISOString()]. *)
Definition new_Date_toISOString : Eff Js.value :=
  fun w => ([], Js.Normal (Js.VStr (Date.toISOString (now w)))).

(** [a || b] with [b] evaluated only when [a] is falsy. *)
Definition or_else (a : Js.value) (b : Eff Js.value) : Eff Js.value :=
  if Js.truthy a then ret a else b.

(** ** server.js *)

(** [{ success: false, error: e }]. *)
Definition error_body (e : Js.value) : Js.value :=
  Js.VObj [("success", Js.VBool false); ("error", e)].

(** The validation test of the rates handler:
    [!baseCurrency || typeof baseCurrency !== 'string'
     || baseCurrency.length !== 3]. *)
Definition invalid_base (baseCurrency : Js.value) : bool :=
  negb (Js.truthy baseCurrency)
  || negb (Js.typeof baseCurrency =? "string")
  || negb (Js.length_is baseCurrency 3).

(** The options of the outbound call. *)
Definition fetch_init : Fetch.init :=
  Fetch.mkInit "GET" [("Accept", "application/json")].

(** [`https://open.er-api.com/v6/latest/${baseCurrency}`]. *)
Definition apiUrl (baseCurrency : Js.value) : string :=
  "https://open.er-api.com/v6/latest/" ++ Js.template baseCurrency.

(** The [try] block of the rates handler; its argument is
    [req.params.baseCurrency]. *)
Definition rates_try (baseCurrency : Js.value) : Eff HttpResponse :=
  if invalid_base baseCurrency then
    ret (mkHttp 400 (error_body (Js.VStr
      "Invalid base currency code. Must be a 3-letter code (e.g., USD, EUR)")))
  else
    apiKey <- getenv "EXCHANGE_RATE_API_KEY" ;;
    if negb (Js.truthy apiKey) then
      console_error [LStr "API key not found in environment variables"] ;;;
      ret (mkHttp 500 (error_body (Js.VStr
        "Server configuration error: API key not set")))
    else
      console_log [LStr ("Fetching exchange rates for base currency: "
                         ++ Js.template baseCurrency)] ;;;
      response <- fetch (apiUrl baseCurrency) fetch_init ;;
      if negb (Fetch.ok response) then
        errorText <- await (Fetch.text response) ;;
        console_error [LStr ("API Error: "
                             ++ Js.template_int (Fetch.status response)
                             ++ " - " ++ errorText)] ;;;
        ret (mkHttp (Fetch.status response) (error_body (Js.VStr
          ("Failed to fetch exchange rates: " ++ Fetch.statusText response))))
      else
        data <- await (Fetch.json response) ;;
        result <- await (Js.get data "result") ;;
        if Js.strict_eq_str result "error" then
          logged <- await (Js.get data "error-type") ;;
          console_error [LStr "API returned error:"; LVal logged] ;;;
          error_type <- await (Js.get data "error-type") ;;
          ret (mkHttp 400 (error_body
            (Js.or error_type (Js.VStr "Unknown API error"))))
        else
          checked <- await (Js.get data "rates") ;;
          if negb (Js.truthy checked) then
            console_error [LStr "Invalid API response: rates not found"] ;;;
            ret (mkHttp 500 (error_body (Js.VStr
              "Invalid response from exchange rate API")))
          else
            base_code <- await (Js.get data "base_code") ;;
            time_last_update_utc <- await (Js.get data "time_last_update_utc") ;;
            date <- or_else time_last_update_utc new_Date_toISOString ;;
            data_rates <- await (Js.get data "rates") ;;
            ret (mkHttp 200 (Js.VObj
              [("success", Js.VBool true);
               ("base", Js.or base_code baseCurrency);
               ("date", date);
               ("rates", data_rates)])).

(** The [catch (error)] block of the rates handler. *)
Definition rates_catch (error : Js.Error) : Eff HttpResponse :=
  console_error [LStr "Error in /api/rates endpoint:"; LErr error] ;;;
  ret (mkHttp 500 (error_body (Js.VStr
    ("Internal server error: " ++ Js.message error)))).

(** The handler of [app.get('/api/rates/:baseCurrency', ...)]. *)
Definition rates (baseCurrency : Js.value) : Eff HttpResponse :=
  try_catch (rates_try baseCurrency) rates_catch.

(** The handler of [app.get('/api/health', ...)]. *)
Definition health : Eff HttpResponse :=
  timestamp <- new_Date_toISOString ;;
  ret (mkHttp 200 (Js.VObj
    [("success", Js.VBool true);
     ("message", Js.VStr "Currency converter API is running");
     ("timestamp", timestamp)])).

(** The 404 handler, [app.use((req, res) => ...)]. *)
Definition not_found : Eff HttpResponse :=
  ret (mkHttp 404 (error_body (Js.VStr "Endpoint not found"))).

(** The global error handler, [app.use((err, req, res, next) => ...)]. *)
Definition error_handler (err : Js.Error) : Eff HttpResponse :=
  console_error [LStr "Unhandled error:"; LErr err] ;;;
  ret (mkHttp 500 (error_body (Js.VStr "Internal server error"))).

(** Where Express sends a request that the middleware in front of the
    routes ([cors], [express.json], [express.static]) did not answer:
    to the first matching route, to the 404 handler when no route
    matches, or to the error handler when a middleware failed. *)
Inductive Dispatch : Type :=
| ToRates (baseCurrency : Js.value)
| ToHealth
| Unmatched
| Failed (err : Js.Error).

Definition app (d : Dispatch) : Eff HttpResponse :=
  match d with
  | ToRates baseCurrency => rates baseCurrency
  | ToHealth => health
  | Unmatched => not_found
  | Failed err => error_handler err
  end.

(** [const PORT = process.env.PORT || 3000], as interpolated into the
    startup lines. *)
Definition PORT : Eff string :=
  p <- getenv "PORT" ;;
  ret (if Js.truthy p then Js.template p else "3000").

(** The callback of [app.listen(PORT, ...)]: the startup diagnostics.
    The check mark and the warning sign of two lines are the bytes of
    the source file. *)
Definition listening : Eff unit :=
  port <- PORT ;;
  console_log [LStr "==========================================="] ;;;
  console_log [LStr "Currency Converter Backend Server"] ;;;
  console_log [LStr "==========================================="] ;;;
  console_log [LStr ("Server running on http://localhost:" ++ port)] ;;;
  console_log [LStr ("API endpoint: http://localhost:" ++ port
                     ++ "/api/rates/:baseCurrency")] ;;;
  console_log [LStr ("Health check: http://localhost:" ++ port
                     ++ "/api/health")] ;;;
  key <- getenv "EXCHANGE_RATE_API_KEY" ;;
  (if Js.truthy key then
     console_log [LStr "✓ API key is configured"]
   else
     console_log [LStr "⚠ WARNING: API key not found in .env file"] ;;;
     console_log [LStr "  The API may work without a key, or you may need to set EXCHANGE_RATE_API_KEY"]) ;;;
  console_log [LStr "==========================================="].

(** ** The words of the specification *)

(** "A string of exactly 3 characters", as the specification words the
    constraint on the base currency. *)
Definition is_code (v : Js.value) : bool :=
  match v with
  | Js.VStr s => Nat.eqb (String.length s) 3
  | _ => false
  end.

(** The API key as the handler reads it, and whether the handler
    accepts it ([!apiKey] is false). *)
Definition apiKey (w : World) : Js.value := env_value w "EXCHANGE_RATE_API_KEY".

Definition key_configured (w : World) : bool := Js.truthy (apiKey w).

(** The number of outbound calls in a trace. *)
Fixpoint outbound_calls (t : list Event) : nat :=
  match t with
  | [] => 0
  | Outbound _ _ :: rest => S (outbound_calls rest)
  | Log _ _ :: rest => outbound_calls rest
  end.

(** A body [{success: true, ...}] sent with status 200. *)
Definition success_shape (resp : HttpResponse) : Prop :=
  code resp = 200%Z
  /\ exists rest, body resp = Js.VObj (("success", Js.VBool true) :: rest).

(** [e] is the truthy [error-type] of the payload the upstream answered
    the request for [b] with, a payload whose [result] is ["error"]. *)
Definition echoes_upstream (w : World) (b e : Js.value) : Prop :=
  exists r fields,
    upstream w (apiUrl b) fetch_init = Js.Normal r
    /\ Fetch.json r = Js.Normal (Js.VObj fields)
    /\ Js.field fields "result" = Js.VStr "error"
    /\ e = Js.field fields "error-type"
    /\ Js.truthy e = true.

(** The body is [{success: false, error: e}], where [e] is a string
    unless it is the upstream's own [error-type] value, passed on as it
    came with status 400. *)
Definition failure_shape (w : World) (d : Dispatch) (resp : HttpResponse) : Prop :=
  exists e,
    body resp = error_body e
    /\ (Js.typeof e = "string"
        \/ exists b, d = ToRates b /\ code resp = 400%Z /\ echoes_upstream w b e).

(** The same world at another time. *)
Definition set_now (w : World) (t : Z) : World :=
  mkWorld (env w) (upstream w) t.

(** The same world with [EXCHANGE_RATE_API_KEY=key]. *)
Definition set_key (w : World) (key : string) : World :=
  mkWorld (fun name => if name =? "EXCHANGE_RATE_API_KEY" then Some key
                       else env w name)
          (upstream w) (now w).

(** A body with its [date] field left out. *)
Definition without_date (v : Js.value) : Js.value :=
  match v with
  | Js.VObj fields =>
      Js.VObj (filter (fun kv => negb (fst kv =? "date")) fields)
  | _ => v
  end.

(** ** The responses and trace entries of the rates handler, by name *)

Definition invalid_request : HttpResponse :=
  mkHttp 400 (error_body (Js.VStr
    "Invalid base currency code. Must be a 3-letter code (e.g., USD, EUR)")).

Definition config_error : HttpResponse :=
  mkHttp 500 (error_body (Js.VStr "Server configuration error: API key not set")).

Definition malformed_upstream : HttpResponse :=
  mkHttp 500 (error_body (Js.VStr "Invalid response from exchange rate API")).

Definition internal_error (error : Js.Error) : HttpResponse :=
  mkHttp 500 (error_body (Js.VStr
    ("Internal server error: " ++ Js.message error))).

(** [{ success: true, base, date, rates }]. *)
Definition rate_response (base date rates : Js.value) : Js.value :=
  Js.VObj [("success", Js.VBool true); ("base", base);
           ("date", date); ("rates", rates)].

Definition log_key_missing : Event :=
  Log Stderr [LStr "API key not found in environment variables"].

Definition log_fetching (baseCurrency : Js.value) : Event :=
  Log Stdout [LStr ("Fetching exchange rates for base currency: "
                    ++ Js.template baseCurrency)].

Definition the_call (baseCurrency : Js.value) : Event :=
  Outbound (apiUrl baseCurrency) fetch_init.

Definition log_caught (error : Js.Error) : Event :=
  Log Stderr [LStr "Error in /api/rates endpoint:"; LErr error].

(** ** Example worlds *)

(** A [process.env] that holds only [EXCHANGE_RATE_API_KEY=key]. *)
Definition env_with_key (key : string) : string -> option string :=
  fun name => if name =? "EXCHANGE_RATE_API_KEY" then Some key else None.

(** An empty [process.env]: no [.env] file, no variable set. *)
Definition env_empty : string -> option string := fun _ => None.

(** An upstream that settles every call the same way. *)
Definition upstream_always (c : Js.completion Fetch.response)
  : string -> Fetch.init -> Js.completion Fetch.response :=
  fun _ _ => c.

(** A world with the key set, at 2024-01-15T12:00:00.123Z. *)
Definition world_with (c : Js.completion Fetch.response) : World :=
  mkWorld (env_with_key "secret") (upstream_always c) 1705320000123.

(** The same with nothing in the environment. *)
Definition world_without_key (c : Js.completion Fetch.response) : World :=
  mkWorld env_empty (upstream_always c) 1705320000123.

(** A JSON string literal of the raw body. *)
Definition quoted (s : string) : string :=
  String (ascii_of_nat 34) s ++ String (ascii_of_nat 34) EmptyString.

(** The payload [{base_code:"USD", rates:{"EUR":0.9}}] and the 200 reply
    that carries it. *)
Definition usd_payload : list (string * Js.value) :=
  [("base_code", Js.VStr "USD"); ("rates", Js.VObj [("EUR", Js.VNum 0.9)])].

Definition usd_reply : Fetch.response :=
  Fetch.mkResponse 200 "OK"
    (Js.Normal ("{" ++ quoted "base_code" ++ ":" ++ quoted "USD" ++ ","
                ++ quoted "rates" ++ ":{" ++ quoted "EUR" ++ ":0.9}}"))
    (Js.Normal (Js.VObj usd_payload)).

Definition world_usd : World := world_with (Js.Normal usd_reply).

Definition world_keyless : World := world_without_key (Js.Normal usd_reply).

(** The reply of the reference upstream to [/v6/latest/EUR], cut down to
    two rates. *)
Definition eur_payload : list (string * Js.value) :=
  [("result", Js.VStr "success");
   ("time_last_update_utc", Js.VStr "Mon, 15 Jan 2024 00:02:31 +0000");
   ("base_code", Js.VStr "EUR");
   ("rates", Js.VObj [("EUR", Js.VNum 1); ("USD", Js.VNum 1.09)])].

Definition eur_reply : Fetch.response :=
  Fetch.mkResponse 200 "OK"
    (Js.Normal ("{" ++ quoted "result" ++ ":" ++ quoted "success" ++ ","
                ++ quoted "time_last_update_utc" ++ ":"
                ++ quoted "Mon, 15 Jan 2024 00:02:31 +0000" ++ ","
                ++ quoted "base_code" ++ ":" ++ quoted "EUR" ++ ","
                ++ quoted "rates" ++ ":{" ++ quoted "EUR" ++ ":1,"
                ++ quoted "USD" ++ ":1.09}}"))
    (Js.Normal (Js.VObj eur_payload)).

(** The reference upstream reachable and answering, nothing configured. *)
Definition world_unconfigured : World := world_without_key (Js.Normal eur_reply).

(** A 404 reply with a plain-text body, which is no JSON. *)
Definition not_found_reply : Fetch.response :=
  Fetch.mkResponse 404 "Not Found" (Js.Normal "404 page not found")
    (Js.Thrown (Js.mkError "FetchError"
       "invalid json response body at https://open.er-api.com/v6/latest/XXX reason: Unexpected token 'p'")).

Definition world_404 : World := world_with (Js.Normal not_found_reply).

(** The payload [{result:"error", "error-type":"unknown-code"}]. *)
Definition rejected_payload : list (string * Js.value) :=
  [("result", Js.VStr "error"); ("error-type", Js.VStr "unknown-code")].

Definition rejected_reply : Fetch.response :=
  Fetch.mkResponse 200 "OK"
    (Js.Normal ("{" ++ quoted "result" ++ ":" ++ quoted "error" ++ ","
                ++ quoted "error-type" ++ ":" ++ quoted "unknown-code" ++ "}"))
    (Js.Normal (Js.VObj rejected_payload)).

Definition world_rejected : World := world_with (Js.Normal rejected_reply).

(** A 200 reply [{result:"error", "error-type":42}]. *)
Definition numeric_error_reply : Fetch.response :=
  Fetch.mkResponse 200 "OK"
    (Js.Normal ("{" ++ quoted "result" ++ ":" ++ quoted "error" ++ ","
                ++ quoted "error-type" ++ ":42}"))
    (Js.Normal (Js.VObj [("result", Js.VStr "error");
                         ("error-type", Js.VNum 42)])).

Definition world_numeric_error : World :=
  world_with (Js.Normal numeric_error_reply).

(** A 200 reply whose body is the JSON text [null]. *)
Definition null_reply : Fetch.response :=
  Fetch.mkResponse 200 "OK" (Js.Normal "null") (Js.Normal Js.VNull).

Definition world_null : World := world_with (Js.Normal null_reply).

(** A 200 reply [{result:"success"}]: an object with no [rates]. *)
Definition no_rates_reply : Fetch.response :=
  Fetch.mkResponse 200 "OK"
    (Js.Normal ("{" ++ quoted "result" ++ ":" ++ quoted "success" ++ "}"))
    (Js.Normal (Js.VObj [("result", Js.VStr "success")])).

Definition world_no_rates : World := world_with (Js.Normal no_rates_reply).

(** An upstream that cannot be reached. *)
Definition unreachable : Js.Error :=
  Js.mkError "FetchError"
    "request to https://open.er-api.com/v6/latest/USD failed, reason: getaddrinfo ENOTFOUND open.er-api.com".

Definition world_down : World := world_with (Js.Thrown unreachable).

(** ** Further readings of traces and responses *)

(** The number of [console.error] lines in a trace. *)
Fixpoint stderr_lines (t : list Event) : nat :=
  match t with
  | [] => 0
  | Log Stderr _ :: rest => S (stderr_lines rest)
  | _ :: rest => stderr_lines rest
  end.

(** A status in the range 200..299. *)
Definition is_2xx (status : Z) : bool :=
  (200 <=? status)%Z && (status <? 300)%Z.

(** The field [k] of a response body, [undefined] when the body has
    none. *)
Definition body_field (v : Js.value) (k : string) : Js.value :=
  match v with
  | Js.VObj fields => Js.field fields k
  | _ => Js.VUndefined
  end.

(** The body says [success: true]. *)
Definition succeeded (v : Js.value) : bool :=
  match body_field v "success" with
  | Js.VBool true => true
  | _ => false
  end.

(** The same world in front of another upstream. *)
Definition set_upstream (w : World)
    (u : string -> Fetch.init -> Js.completion Fetch.response) : World :=
  mkWorld (env w) u (now w).

(** The two lines of the startup callback that report on the key. *)
Definition log_key_present : Event :=
  Log Stdout [LStr "✓ API key is configured"].

Definition log_key_warning : Event :=
  Log Stdout [LStr "⚠ WARNING: API key not found in .env file"].

(** A 502 reply whose body breaks off before it is read. *)
Definition cut_off : Js.Error :=
  Js.mkError "FetchError"
    "Invalid response body while trying to fetch https://open.er-api.com/v6/latest/USD: Premature close".

Definition cut_reply : Fetch.response :=
  Fetch.mkResponse 502 "Bad Gateway" (Js.Thrown cut_off) (Js.Thrown cut_off).

Definition world_cut : World := world_with (Js.Normal cut_reply).

(** A 200 reply whose body is an HTML page, which is no JSON. *)
Definition not_json : Js.Error :=
  Js.mkError "FetchError"
    "invalid json response body at https://open.er-api.com/v6/latest/USD reason: Unexpected token < in JSON at position 0".

Definition html_reply : Fetch.response :=
  Fetch.mkResponse 200 "OK" (Js.Normal "<html>maintenance</html>")
    (Js.Thrown not_json).

Definition world_html : World := world_with (Js.Normal html_reply).

(** A 503 reply with a JSON body, and the same status line with an
    HTML body. *)
Definition busy_json_reply : Fetch.response :=
  Fetch.mkResponse 503 "Service Unavailable"
    (Js.Normal ("{" ++ quoted "result" ++ ":" ++ quoted "error" ++ "}"))
    (Js.Normal (Js.VObj [("result", Js.VStr "error")])).

Definition busy_html_reply : Fetch.response :=
  Fetch.mkResponse 503 "Service Unavailable"
    (Js.Normal "<html>busy</html>") (Js.Thrown not_json).

(** The payload of [usd_reply] under another 2xx status line. *)
Definition usd_reply_203 : Fetch.response :=
  Fetch.mkResponse 203 "Non-Authoritative Information"
    (Js.Normal "unused") (Js.Normal (Js.VObj usd_payload)).

(** A decimal digit. *)
Definition is_digit (c : ascii) : bool :=
  Nat.leb 48 (nat_of_ascii c) && Nat.leb (nat_of_ascii c) 57.

(** [s] has the layout [p], where a [d] of the layout stands for any
    decimal digit and every other character for itself. *)
Fixpoint has_layout (p s : string) : bool :=
  match p, s with
  | EmptyString, EmptyString => true
  | String x p', String c s' =>
      (if Ascii.eqb x "d" then is_digit c else Ascii.eqb x c)
      && has_layout p' s'
  | _, _ => false
  end.

(** The layout of an ISO-8601 timestamp of the years 0000 to 9999. *)
Definition iso_layout : string := "dddd-dd-ddTdd:dd:dd.dddZ".

(** ** Which requests succeed *)

(** The rates request for [b] in world [w] is one that succeeds: the
    code is a three-character string, the key is set, and the upstream
    answers the call with a 2xx status and a payload object whose
    [result] is not ["error"] and whose [rates] is truthy.  Every other
    rates request is a failure. *)
Definition rates_succeeds (w : World) (b : Js.value) : bool :=
  is_code b && key_configured w
  && match upstream w (apiUrl b) fetch_init with
     | Js.Normal r =>
         Fetch.ok r
         && match Fetch.json r with
            | Js.Normal (Js.VObj fields) =>
                negb (Js.strict_eq_str (Js.field fields "result") "error")
                && Js.truthy (Js.field fields "rates")
            | _ => false
            end
     | Js.Thrown _ => false
     end.

(** Of the dispatched requests, a rates request that succeeds and a
    health probe are successes; an unmatched request and a failed
    middleware are failures. *)
Definition succeeds (w : World) (d : Dispatch) : bool :=
  match d with
  | ToRates b => rates_succeeds w b
  | ToHealth => true
  | Unmatched => false
  | Failed _ => false
  end.

(** A 200 reply [{rates:5}]: a [rates] field that is no mapping. *)
Definition number_rates_reply : Fetch.response :=
  Fetch.mkResponse 200 "OK"
    (Js.Normal ("{" ++ quoted "rates" ++ ":5}"))
    (Js.Normal (Js.VObj [("rates", Js.VNum 5)])).

Definition world_number_rates : World :=
  world_with (Js.Normal number_rates_reply).

(** ** Proof automation *)

(** Unfolding of the monad's operations, and nothing else: the strings
    and the world stay as they are written. *)
Ltac run :=
  cbv beta iota zeta delta
    [rates rates_try rates_catch health not_found error_handler app
     try_catch bind ret await getenv fetch console_log console_error emit
     or_else new_Date_toISOString List.app fst snd hd_error];
  cbn [negb].

(** Case analysis on the next test of the handler. *)
Ltac branch :=
  match goal with
  | |- context [ negb ?c ] => destruct c eqn:?; run
  | |- context [ match ?c with Js.Normal _ => _ | Js.Thrown _ => _ end ] =>
      destruct c eqn:?; run
  | |- context [ if ?c then _ else _ ] => destruct c eqn:?; run
  end.

(** ** Sanity checks of the operators *)

Example toISOString_epoch : Date.toISOString 0 = "1970-01-01T00:00:00.000Z".
Proof. reflexivity. Qed.

Example toISOString_2024 :
  Date.toISOString 1705320000123 = "2024-01-15T12:00:00.123Z".
Proof. reflexivity. Qed.

Example toISOString_before_epoch :
  Date.toISOString (-1) = "1969-12-31T23:59:59.999Z".
Proof. reflexivity. Qed.

Example toISOString_leap_day :
  Date.toISOString 951782400000 = "2000-02-29T00:00:00.000Z".
Proof. reflexivity. Qed.

Example template_int_404 : Js.template_int 404 = "404".
Proof. reflexivity. Qed.

Example usd_reply_text :
  Fetch.text usd_reply
  = Js.Normal ("{" ++ quoted "base_code" ++ ":" ++ quoted "USD"
               ++ "," ++ quoted "rates" ++ ":{" ++ quoted "EUR" ++ ":0.9}}")
  /\ String.length (quoted "USD") = 5.
Proof. split; reflexivity. Qed.

(** ** The JavaScript operators *)

Lemma append_cons_not_empty (a : string) (c : ascii) (rest : string) :
  (a ++ String c rest =? EmptyString) = false.
Proof. destruct a; reflexivity. Qed.

(** [toISOString] never yields the empty string. *)
Lemma toISOString_truthy (t : Z) :
  Js.truthy (Js.VStr (Date.toISOString t)) = true.
Proof.
  unfold Date.toISOString.
  destruct (Date.civil (t / Date.msPerDay)) as [[y m] d].
  cbn [Js.truthy append]. now rewrite append_cons_not_empty.
Qed.

Lemma strict_eq_str_true (v : Js.value) (lit : string) :
  Js.strict_eq_str v lit = true -> v = Js.VStr lit.
Proof.
  destruct v; cbn; try discriminate.
  intros H. apply String.eqb_eq in H. now subst.
Qed.

(** Reading a string out of a value means the value is an object. *)
Lemma get_string_object (data : Js.value) (k s : string) :
  Js.get data k = Js.Normal (Js.VStr s) ->
  exists fields, data = Js.VObj fields /\ Js.field fields k = Js.VStr s.
Proof.
  destruct data; cbn; try discriminate.
  intros H. injection H as H. now exists fields.
Qed.

(** ** Validation *)

(** The handler's test rejects exactly what is not a three-character
    string. *)
Lemma invalid_base_is_code (b : Js.value) : invalid_base b = negb (is_code b).
Proof.
  unfold invalid_base.
  destruct b as [ | | x | n | s | items | fields ];
    try (destruct (Js.truthy _); reflexivity).
  destruct s as [ | c s ]; reflexivity.
Qed.

Lemma valid_code_is_string (b : Js.value) :
  invalid_base b = false ->
  exists s, b = Js.VStr s /\ String.length s = 3.
Proof.
  rewrite invalid_base_is_code.
  destruct b; cbn; try discriminate.
  intros H. exists s. split; [ reflexivity | ].
  apply Nat.eqb_eq. now destruct (Nat.eqb (String.length s) 3).
Qed.

(** So the interpolated text is the code itself. *)
Lemma template_of_valid_code (b : Js.value) :
  invalid_base b = false -> b = Js.VStr (Js.template b).
Proof.
  intros H. destruct (valid_code_is_string b H) as [s [-> _]]. reflexivity.
Qed.

(** The steps every request takes up to the outbound call, for a valid
    code [Hcode] and a configured key [Hkey]. *)
Ltac past_checks Hcode Hkey :=
  run; rewrite invalid_base_is_code, Hcode; run;
  match type of Hkey with
  | key_configured ?w = _ =>
      change (Js.truthy (env_value w "EXCHANGE_RATE_API_KEY"))
        with (key_configured w)
  end;
  rewrite Hkey; run.

(** C2. A base currency that is not a string of exactly three characters
    is answered with status 400 and the invalid-code error body, and the
    request leaves no trace: no upstream call and no log line.  A string
    of exactly three characters passes the validation test, and the
    request goes on to the key check: its first action is the log line
    of a missing key or the log line that precedes the upstream call. *)
Theorem rates_validation (b : Js.value) (w : World) :
  (is_code b = false ->
   rates b w
   = ([], Js.Normal (mkHttp 400 (Js.VObj
        [("success", Js.VBool false);
         ("error", Js.VStr
            "Invalid base currency code. Must be a 3-letter code (e.g., USD, EUR)")]))))
  /\ (is_code b = true ->
      invalid_base b = false
      /\ hd_error (fst (rates b w))
         = Some (if key_configured w then log_fetching b else log_key_missing)).
Proof.
  split; intros H.
  - run. rewrite invalid_base_is_code, H. reflexivity.
  - assert (V : invalid_base b = false) by (now rewrite invalid_base_is_code, H).
    split; [ exact V | ].
    unfold key_configured, apiKey. run. rewrite V.
    repeat branch; reflexivity.
Qed.

Lemma rates_validation_witness :
  rates (Js.VStr "US") world_usd = ([], Js.Normal invalid_request)
  /\ hd_error (fst (rates (Js.VStr "USD") world_usd))
     = Some (log_fetching (Js.VStr "USD")).
Proof.
  split.
  - apply (rates_validation (Js.VStr "US") world_usd). reflexivity.
  - apply (rates_validation (Js.VStr "USD") world_usd). reflexivity.
Defined.

(** ** The health probe and the startup callback *)

(** C7. For every world, whatever the configuration and whatever the
    upstream would answer, the health handler completes with status 200
    and the body [{success: true, message, timestamp}], the timestamp
    being the clock's ISO-8601 rendering, and it performs no outbound
    call (its trace is empty). *)
Theorem health_unconditional (w : World) :
  app ToHealth w
  = ([], Js.Normal (mkHttp 200 (Js.VObj
       [("success", Js.VBool true);
        ("message", Js.VStr "Currency converter API is running");
        ("timestamp", Js.VStr (Date.toISOString (now w)))])))
  /\ outbound_calls (fst (app ToHealth w)) = 0.
Proof. split; reflexivity. Qed.

(** The startup callback completes in every world. *)
Lemma listening_completes (w : World) : snd (listening w) = Js.Normal tt.
Proof.
  unfold listening, PORT, bind, ret, getenv, console_log, emit.
  cbn [fst snd].
  destruct (Js.truthy (env_value w "EXCHANGE_RATE_API_KEY")); reflexivity.
Qed.

(** ** The missing key *)

(** C3, as the code has it.  When the API key is absent from the
    environment (or empty), every rates request with a three-character
    code is answered with status 500 and
    ["Server configuration error: API key not set"], after one log line
    and before any upstream call; the handler has no notion of an
    upstream that needs no key.  The absence is not a startup failure:
    the startup callback completes and the health probe answers 200. *)
Theorem missing_key (w : World) (b : Js.value) :
  is_code b = true ->
  key_configured w = false ->
  rates b w
  = ([Log Stderr [LStr "API key not found in environment variables"]],
     Js.Normal (mkHttp 500 (Js.VObj
       [("success", Js.VBool false);
        ("error", Js.VStr "Server configuration error: API key not set")])))
  /\ outbound_calls (fst (rates b w)) = 0
  /\ snd (listening w) = Js.Normal tt
  /\ exists timestamp,
       snd (app ToHealth w)
       = Js.Normal (mkHttp 200 (Js.VObj
           [("success", Js.VBool true);
            ("message", Js.VStr "Currency converter API is running");
            ("timestamp", timestamp)])).
Proof.
  intros Hcode Hkey.
  assert (R : rates b w = ([log_key_missing], Js.Normal config_error))
    by (past_checks Hcode Hkey; reflexivity).
  split; [ exact R | ].
  split; [ now rewrite R | ].
  split; [ apply listening_completes | ].
  now exists (Js.VStr (Date.toISOString (now w))).
Qed.

Lemma missing_key_witness :
  rates (Js.VStr "USD") world_keyless
  = ([log_key_missing], Js.Normal config_error).
Proof.
  exact (proj1 (missing_key world_keyless (Js.VStr "USD") eq_refl eq_refl)).
Defined.

(** C3 as stated fails: with the reference upstream, which needs no key
    and here answers the call it would get, the absence of the key still
    fails the request, and the upstream is never called. *)
Lemma keyless_request_fails :
  env world_unconfigured "EXCHANGE_RATE_API_KEY" = None
  /\ upstream world_unconfigured (apiUrl (Js.VStr "EUR")) fetch_init
     = Js.Normal eur_reply
  /\ Fetch.ok eur_reply = true
  /\ rates (Js.VStr "EUR") world_unconfigured
     = ([log_key_missing],
        Js.Normal (mkHttp 500 (error_body (Js.VStr
          "Server configuration error: API key not set")))).
Proof. repeat split. Qed.

(** ** Requests that reach the upstream *)

Section Past_the_checks.

Variables (w : World) (b : Js.value).
Hypothesis code_ok : is_code b = true.
Hypothesis key_ok : key_configured w = true.

(** A failed transport is caught. *)
Lemma transport_failure_caught (error : Js.Error) :
  upstream w (apiUrl b) fetch_init = Js.Thrown error ->
  rates b w = ([log_fetching b; the_call b; log_caught error],
               Js.Normal (internal_error error)).
Proof.
  intros failed. past_checks code_ok key_ok. rewrite failed. reflexivity.
Qed.

Section Replied.

Variable r : Fetch.response.
Hypothesis replied : upstream w (apiUrl b) fetch_init = Js.Normal r.

(** C4, as the code has it.  For a three-character code and a
    configured key, when the upstream replies with a status outside
    200..299 and the body of the reply can be read as text, the answer
    has success false, the error ["Failed to fetch exchange rates: "]
    followed by the upstream's status text, and the upstream's status
    code as its own HTTP status. *)
Theorem upstream_status_forwarded (errorText : string) :
  Fetch.ok r = false ->
  Fetch.text r = Js.Normal errorText ->
  rates b w
  = ([log_fetching b; the_call b;
      Log Stderr [LStr ("API Error: " ++ Js.template_int (Fetch.status r)
                        ++ " - " ++ errorText)]],
     Js.Normal (mkHttp (Fetch.status r)
       (Js.VObj [("success", Js.VBool false);
                 ("error", Js.VStr ("Failed to fetch exchange rates: "
                                    ++ Fetch.statusText r))]))).
Proof.
  intros not_ok body_read.
  past_checks code_ok key_ok. rewrite replied. run.
  rewrite not_ok. run. rewrite body_read. reflexivity.
Qed.

(** C6, as the code has it.  For a three-character code and a
    configured key, when the upstream answers 2xx with a payload whose
    fields can be read (any JSON value but [null]), whose [result] is
    not ["error"] and whose [rates] is absent or falsy, the answer is
    status 500 with ["Invalid response from exchange rate API"].
    Nothing is said here of the payload [null]. *)
Theorem upstream_malformed (data result checked : Js.value) :
  Fetch.ok r = true ->
  Fetch.json r = Js.Normal data ->
  Js.get data "result" = Js.Normal result ->
  Js.strict_eq_str result "error" = false ->
  Js.get data "rates" = Js.Normal checked ->
  Js.truthy checked = false ->
  rates b w
  = ([log_fetching b; the_call b;
      Log Stderr [LStr "Invalid API response: rates not found"]],
     Js.Normal (mkHttp 500
       (Js.VObj [("success", Js.VBool false);
                 ("error", Js.VStr "Invalid response from exchange rate API")]))).
Proof.
  intros ok parsed Hres Hne Hrates Hfalsy.
  past_checks code_ok key_ok. rewrite replied. run.
  rewrite ok. run. rewrite parsed. run.
  rewrite Hres. run. rewrite Hne. run. rewrite Hrates. run.
  rewrite Hfalsy. reflexivity.
Qed.

Section Parsed.

Variable fields : list (string * Js.value).
Hypothesis ok : Fetch.ok r = true.
Hypothesis parsed : Fetch.json r = Js.Normal (Js.VObj fields).

(** C5. For a three-character code and a configured key, when the
    upstream answers 2xx with a payload whose [result] is ["error"], the
    answer is status 400 with [{success: false, error}], where [error]
    is the payload's [error-type] when that is truthy and
    ["Unknown API error"] when it is absent or falsy. *)
Theorem upstream_rejection :
  Js.field fields "result" = Js.VStr "error" ->
  rates b w
  = ([log_fetching b; the_call b;
      Log Stderr [LStr "API returned error:"; LVal (Js.field fields "error-type")]],
     Js.Normal (mkHttp 400
       (Js.VObj [("success", Js.VBool false);
                 ("error",
                  if Js.truthy (Js.field fields "error-type")
                  then Js.field fields "error-type"
                  else Js.VStr "Unknown API error")]))).
Proof.
  intros rejected.
  past_checks code_ok key_ok. rewrite replied. run.
  rewrite ok. run. rewrite parsed. run.
  cbn [Js.get]. run. rewrite rejected. reflexivity.
Qed.

(** C1, as the code has it.  In every world whose API key is set to a
    non-empty value, for a three-character base currency, when the
    upstream answers with a 2xx status and a payload object whose
    [result] is not ["error"] and whose [rates] is truthy, the answer is
    status 200 with [{success: true, base, date, rates}]: [base] is the
    payload's [base_code] or else the requested code, [date] is the
    payload's [time_last_update_utc] or else the current time in
    ISO-8601 form (never empty), and [rates] is the payload's [rates]
    value itself.  One outbound call is made. *)
Theorem rates_success :
  Js.strict_eq_str (Js.field fields "result") "error" = false ->
  Js.truthy (Js.field fields "rates") = true ->
  let date :=
    if Js.truthy (Js.field fields "time_last_update_utc")
    then Js.field fields "time_last_update_utc"
    else Js.VStr (Date.toISOString (now w)) in
  rates b w
  = ([log_fetching b; the_call b],
     Js.Normal (mkHttp 200 (Js.VObj
       [("success", Js.VBool true);
        ("base", if Js.truthy (Js.field fields "base_code")
                 then Js.field fields "base_code" else b);
        ("date", date);
        ("rates", Js.field fields "rates")])))
  /\ Js.truthy date = true.
Proof.
  intros not_rejected has_rates date.
  split.
  - past_checks code_ok key_ok. rewrite replied. run.
    rewrite ok. run. rewrite parsed. run.
    cbn [Js.get]. run. rewrite not_rejected. run. rewrite has_rates. run.
    subst date. unfold Js.or.
    destruct (Js.truthy (Js.field fields "time_last_update_utc")); reflexivity.
  - subst date.
    destruct (Js.truthy (Js.field fields "time_last_update_utc")) eqn:E.
    + exact E.
    + apply toISOString_truthy.
Qed.

End Parsed.
End Replied.
End Past_the_checks.

(** The example of C1: key configured, payload
    [{base_code:"USD", rates:{"EUR":0.9}}], request for ["USD"]. *)
Lemma rates_usd_example :
  rates (Js.VStr "USD") world_usd
  = ([log_fetching (Js.VStr "USD"); the_call (Js.VStr "USD")],
     Js.Normal (mkHttp 200
       (rate_response (Js.VStr "USD") (Js.VStr "2024-01-15T12:00:00.123Z")
          (Js.VObj [("EUR", Js.VNum 0.9)])))).
Proof.
  exact (proj1 (rates_success world_usd (Js.VStr "USD") eq_refl eq_refl
                  usd_reply eq_refl usd_payload eq_refl eq_refl
                  eq_refl eq_refl)).
Defined.

(** C1 as stated, for every configuration, fails where no key is
    configured: the same upstream, the same request, and the answer is
    the 500 configuration error, not a rate response. *)
Lemma rates_usd_without_key :
  upstream world_keyless (apiUrl (Js.VStr "USD")) fetch_init
    = Js.Normal usd_reply
  /\ Fetch.status usd_reply = 200%Z
  /\ Fetch.json usd_reply = Js.Normal (Js.VObj usd_payload)
  /\ rates (Js.VStr "USD") world_keyless
     = ([log_key_missing], Js.Normal config_error)
  /\ forall date,
       snd (rates (Js.VStr "USD") world_keyless)
       <> Js.Normal (mkHttp 200
            (rate_response (Js.VStr "USD") date
               (Js.VObj [("EUR", Js.VNum 0.9)]))).
Proof.
  repeat split; try reflexivity.
  intros date H. vm_compute in H. discriminate H.
Qed.

(** The example of C4: the upstream answers 404 to a request for
    ["XXX"]. *)
Lemma upstream_404_example :
  rates (Js.VStr "XXX") world_404
  = ([log_fetching (Js.VStr "XXX"); the_call (Js.VStr "XXX");
      Log Stderr [LStr "API Error: 404 - 404 page not found"]],
     Js.Normal (mkHttp 404
       (Js.VObj [("success", Js.VBool false);
                 ("error", Js.VStr "Failed to fetch exchange rates: Not Found")]))).
Proof.
  exact (upstream_status_forwarded world_404 (Js.VStr "XXX") eq_refl eq_refl
           not_found_reply eq_refl "404 page not found" eq_refl eq_refl).
Defined.

(** C4 as stated fails on a reply whose body cannot be read: the
    upstream replies 502 Bad Gateway, [response.text()] rejects, and the
    answer is status 500 without the upstream's status text. *)
Lemma cut_reply_not_forwarded :
  upstream world_cut (apiUrl (Js.VStr "USD")) fetch_init = Js.Normal cut_reply
  /\ Fetch.status cut_reply = 502%Z
  /\ Fetch.statusText cut_reply = "Bad Gateway"
  /\ Fetch.ok cut_reply = false
  /\ rates (Js.VStr "USD") world_cut
     = ([log_fetching (Js.VStr "USD"); the_call (Js.VStr "USD");
         log_caught cut_off],
        Js.Normal (mkHttp 500 (Js.VObj
          [("success", Js.VBool false);
           ("error", Js.VStr
              "Internal server error: Invalid response body while trying to fetch https://open.er-api.com/v6/latest/USD: Premature close")])))
  /\ forall message,
       snd (rates (Js.VStr "USD") world_cut)
       <> Js.Normal (mkHttp 502 (Js.VObj
            [("success", Js.VBool false); ("error", Js.VStr message)])).
Proof.
  repeat split. intros message H. vm_compute in H. discriminate H.
Qed.

(** The example of C5: the error is exactly ["unknown-code"]. *)
Lemma upstream_rejection_example :
  rates (Js.VStr "ZZZ") world_rejected
  = ([log_fetching (Js.VStr "ZZZ"); the_call (Js.VStr "ZZZ");
      Log Stderr [LStr "API returned error:"; LVal (Js.VStr "unknown-code")]],
     Js.Normal (mkHttp 400
       (Js.VObj [("success", Js.VBool false);
                 ("error", Js.VStr "unknown-code")]))).
Proof.
  exact (upstream_rejection world_rejected (Js.VStr "ZZZ") eq_refl eq_refl
           rejected_reply eq_refl rejected_payload eq_refl eq_refl eq_refl).
Defined.

(** The example of C6: a body without a [rates] field. *)
Lemma upstream_malformed_example :
  rates (Js.VStr "USD") world_no_rates
  = ([log_fetching (Js.VStr "USD"); the_call (Js.VStr "USD");
      Log Stderr [LStr "Invalid API response: rates not found"]],
     Js.Normal malformed_upstream).
Proof.
  exact (upstream_malformed world_no_rates (Js.VStr "USD") eq_refl eq_refl
           no_rates_reply eq_refl
           (Js.VObj [("result", Js.VStr "success")]) (Js.VStr "success")
           Js.VUndefined
           eq_refl eq_refl eq_refl eq_refl eq_refl eq_refl).
Defined.

(** C6 as stated fails on three payloads without a rates mapping.
    [{rates:5}] has a [rates] that is no mapping, the test [!data.rates]
    lets it pass and the answer is 200 with [rates: 5].
    [{result:"error", "error-type":"unknown-code"}] has no [rates], the
    [result] test comes first and the answer is 400.  On [null] the read
    of [data.result] throws and the [catch] block answers. *)
Lemma payloads_without_rates_mapping :
  (Fetch.status number_rates_reply = 200%Z
   /\ Fetch.json number_rates_reply = Js.Normal (Js.VObj [("rates", Js.VNum 5)])
   /\ snd (rates (Js.VStr "USD") world_number_rates)
      = Js.Normal (mkHttp 200
          (rate_response (Js.VStr "USD") (Js.VStr "2024-01-15T12:00:00.123Z")
             (Js.VNum 5))))
  /\ (Fetch.status rejected_reply = 200%Z
      /\ Js.field rejected_payload "rates" = Js.VUndefined
      /\ snd (rates (Js.VStr "USD") world_rejected)
         = Js.Normal (mkHttp 400 (error_body (Js.VStr "unknown-code"))))
  /\ (Fetch.status null_reply = 200%Z
      /\ Fetch.json null_reply = Js.Normal Js.VNull
      /\ snd (rates (Js.VStr "USD") world_null)
         = Js.Normal (mkHttp 500 (error_body (Js.VStr
             "Internal server error: Cannot read properties of null (reading 'result')"))))
  /\ snd (rates (Js.VStr "USD") world_number_rates) <> Js.Normal malformed_upstream
  /\ snd (rates (Js.VStr "USD") world_rejected) <> Js.Normal malformed_upstream
  /\ snd (rates (Js.VStr "USD") world_null) <> Js.Normal malformed_upstream.
Proof.
  repeat split; intros H; vm_compute in H; discriminate H.
Qed.

(** ** The request boundary *)

(** The answer to an upstream rejection has the failure shape. *)
Lemma rejected_shape (w : World) (b : Js.value) (r : Fetch.response)
    (data result error_type : Js.value) :
  upstream w (apiUrl b) fetch_init = Js.Normal r ->
  Fetch.json r = Js.Normal data ->
  Js.get data "result" = Js.Normal result ->
  Js.strict_eq_str result "error" = true ->
  Js.get data "error-type" = Js.Normal error_type ->
  failure_shape w (ToRates b)
    (mkHttp 400 (error_body (Js.or error_type (Js.VStr "Unknown API error")))).
Proof.
  intros Hup Hjson Hres Heq Het.
  apply strict_eq_str_true in Heq. subst result.
  destruct (get_string_object _ _ _ Hres) as [fields [-> Hfield]].
  cbn [Js.get] in Het. injection Het as <-.
  unfold failure_shape, Js.or. cbn [body code].
  destruct (Js.truthy (Js.field fields "error-type")) eqn:T.
  - eexists. split; [ reflexivity | right ].
    exists b. repeat split. exists r, fields. auto.
  - eexists. split; [ reflexivity | left; reflexivity ].
Qed.

(** The rates handler completes normally in every world: whatever its
    [try] block does, one response is sent, a success or a failure. *)
Lemma rates_answers (w : World) (b : Js.value) :
  exists resp,
    snd (rates b w) = Js.Normal resp
    /\ (success_shape resp \/ failure_shape w (ToRates b) resp).
Proof.
  run. repeat branch.
  all: eexists; (split; [ reflexivity | ]).
  all: try (right; eapply rejected_shape; eassumption).
  all: unfold failure_shape, success_shape; cbn [body code error_body].
  all: try (right; eexists; split; [ reflexivity | left; reflexivity ]).
  all: try (left; split; [ reflexivity | eexists; reflexivity ]).
Qed.

(** Every rates request that is not one that succeeds is answered with
    the failure shape and a status outside 200..299; one that succeeds
    is answered with a 200 success body. *)
Lemma rates_boundary (w : World) (b : Js.value) :
  exists resp,
    snd (rates b w) = Js.Normal resp
    /\ (if rates_succeeds w b
        then success_shape resp
        else failure_shape w (ToRates b) resp /\ is_2xx (code resp) = false).
Proof.
  unfold rates_succeeds, key_configured, apiKey.
  run. rewrite invalid_base_is_code.
  destruct (is_code b); cbn [negb andb]; run.
  2: { eexists. split; [ reflexivity | ]. split; [ | reflexivity ].
       eexists. split; [ reflexivity | left; reflexivity ]. }
  destruct (Js.truthy (env_value w "EXCHANGE_RATE_API_KEY")); cbn [negb andb]; run.
  2: { eexists. split; [ reflexivity | ]. split; [ | reflexivity ].
       eexists. split; [ reflexivity | left; reflexivity ]. }
  destruct (upstream w (apiUrl b) fetch_init) as [ r | e ] eqn:Hup; run.
  2: { eexists. split; [ reflexivity | ]. split; [ | reflexivity ].
       eexists. split; [ reflexivity | left; reflexivity ]. }
  destruct (Fetch.ok r) eqn:Hok; cbn [negb andb]; run.
  2: { destruct (Fetch.text r); run.
       all: eexists; (split; [ reflexivity | ]); cbn [code].
       all: split; [ eexists; split; [ reflexivity | left; reflexivity ] | ].
       - exact Hok.
       - reflexivity. }
  destruct (Fetch.json r) as [ data | e ] eqn:Hjson; run.
  2: { eexists. split; [ reflexivity | ]. split; [ | reflexivity ].
       eexists. split; [ reflexivity | left; reflexivity ]. }
  destruct data as [ | | x | n | s | items | fields ];
    cbn [Js.get Js.strict_eq_str Js.truthy negb]; run.
  1-6: eexists; (split; [ reflexivity | ]); (split; [ | reflexivity ]);
    eexists; (split; [ reflexivity | left; reflexivity ]).
  destruct (Js.strict_eq_str (Js.field fields "result") "error") eqn:Hres;
    cbn [negb andb]; run.
  - eexists. split; [ reflexivity | ]. split; [ | reflexivity ].
    eapply rejected_shape; try eassumption; reflexivity.
  - destruct (Js.truthy (Js.field fields "rates")); cbn [negb andb]; run.
    + destruct (Js.truthy (Js.field fields "time_last_update_utc")); run.
      all: eexists; (split; [ reflexivity | ]).
      all: split; [ reflexivity | eexists; reflexivity ].
    + eexists. split; [ reflexivity | ]. split; [ | reflexivity ].
      eexists. split; [ reflexivity | left; reflexivity ].
Qed.

(** C8, as the code has it.  In every world every dispatched request is
    answered and no handler completes by throwing.  A rates request
    that succeeds and a health probe get a 200 success body; every
    other request, that is every failure, gets a status outside
    200..299 and the body [{success: false, error}]; [error] is a
    string, except that an upstream rejection passes the upstream's
    truthy [error-type] on as it came.  An error thrown inside the rates
    handler's [try] block, a failed upstream transport among them, gives
    status 500 with ["Internal server error: "] followed by the error's
    message; a request that matches no route gives status 404 with
    ["Endpoint not found"]; an error handed to the global error handler
    gives status 500 with ["Internal server error"]. *)
Theorem errors_uniform (w : World) :
  (forall d, exists resp,
      snd (app d w) = Js.Normal resp
      /\ (if succeeds w d
          then success_shape resp
          else failure_shape w d resp /\ is_2xx (code resp) = false))
  /\ (forall b t error,
        rates_try b w = (t, Js.Thrown error) ->
        rates b w
        = ((t ++ [Log Stderr [LStr "Error in /api/rates endpoint:"; LErr error]])%list,
           Js.Normal (mkHttp 500 (Js.VObj
             [("success", Js.VBool false);
              ("error", Js.VStr ("Internal server error: "
                                 ++ Js.message error))]))))
  /\ (forall b error,
        is_code b = true ->
        key_configured w = true ->
        upstream w (apiUrl b) fetch_init = Js.Thrown error ->
        snd (rates b w)
        = Js.Normal (mkHttp 500 (Js.VObj
            [("success", Js.VBool false);
             ("error", Js.VStr ("Internal server error: "
                                ++ Js.message error))])))
  /\ app Unmatched w
     = ([], Js.Normal (mkHttp 404 (Js.VObj
          [("success", Js.VBool false);
           ("error", Js.VStr "Endpoint not found")])))
  /\ (forall err,
        app (Failed err) w
        = ([Log Stderr [LStr "Unhandled error:"; LErr err]],
           Js.Normal (mkHttp 500 (Js.VObj
             [("success", Js.VBool false);
              ("error", Js.VStr "Internal server error")])))).
Proof.
  repeat split.
  - intros [ b | | | err ].
    + apply rates_boundary.
    + eexists. split; [ reflexivity | ].
      split; [ reflexivity | eexists; reflexivity ].
    + eexists. split; [ reflexivity | ]. split; [ | reflexivity ].
      eexists. split; [ reflexivity | left; reflexivity ].
    + eexists. split; [ reflexivity | ]. split; [ | reflexivity ].
      eexists. split; [ reflexivity | left; reflexivity ].
  - intros b t error H.
    unfold rates, try_catch. rewrite H. reflexivity.
  - intros b error Hcode Hkey Hup.
    now rewrite (transport_failure_caught w b Hcode Hkey error Hup).
Qed.

(** The example of C8: the upstream cannot be reached. *)
Lemma upstream_down_example :
  snd (rates (Js.VStr "USD") world_down)
  = Js.Normal (mkHttp 500 (Js.VObj
      [("success", Js.VBool false);
       ("error", Js.VStr
          "Internal server error: request to https://open.er-api.com/v6/latest/USD failed, reason: getaddrinfo ENOTFOUND open.er-api.com")])).
Proof.
  destruct (errors_uniform world_down) as [_ [_ [H _]]].
  exact (H (Js.VStr "USD") unreachable eq_refl eq_refl eq_refl).
Defined.

(** C8 as stated fails on [{result:"error", "error-type":42}]: the
    error of the answer is the number 42, so the body is not
    [{success: false, error: <string>}].  And an error that reaches the
    global error handler is answered without its message. *)
Lemma numeric_error_type_passed_on :
  upstream world_numeric_error (apiUrl (Js.VStr "USD")) fetch_init
    = Js.Normal numeric_error_reply
  /\ snd (app (ToRates (Js.VStr "USD")) world_numeric_error)
     = Js.Normal (mkHttp 400 (Js.VObj
         [("success", Js.VBool false); ("error", Js.VNum 42)]))
  /\ Js.typeof (Js.VNum 42) = "number"
  /\ (forall status message,
        snd (app (ToRates (Js.VStr "USD")) world_numeric_error)
        <> Js.Normal (mkHttp status (Js.VObj
             [("success", Js.VBool false); ("error", Js.VStr message)])))
  /\ snd (app (Failed (Js.mkError "SyntaxError" "Unexpected end of JSON input"))
            world_numeric_error)
     = Js.Normal (mkHttp 500 (Js.VObj
         [("success", Js.VBool false);
          ("error", Js.VStr "Internal server error")])).
Proof.
  repeat split. intros status message H. vm_compute in H. discriminate H.
Qed.

(** ** One call, no state *)

(** C9. In every world a rates request makes at most one outbound call,
    and that call is the GET to the provider's latest-rates URL for the
    requested code; everything else in its trace is a log line.  The
    handler always completes with a response, so a failed call is final
    for the request.  Two requests in sequence leave the trace of the
    first followed by the trace of the second, and the second is
    answered as it would be alone: nothing is carried over. *)
Theorem rates_single_call (w : World) (b : Js.value) :
  outbound_calls (fst (rates b w)) <= 1
  /\ (forall ev, In ev (fst (rates b w)) ->
        ev = Outbound (apiUrl b) (Fetch.mkInit "GET" [("Accept", "application/json")])
        \/ exists to args, ev = Log to args)
  /\ (exists resp, snd (rates b w) = Js.Normal resp)
  /\ (forall b',
        (rates b ;;; rates b') w
        = ((fst (rates b w) ++ fst (rates b' w))%list, snd (rates b' w))).
Proof.
  repeat split.
  - run. repeat branch; cbn [outbound_calls]; lia.
  - intros ev. run. repeat branch; cbn [In]; intros H;
      repeat (destruct H as [ <- | H ]; [ eauto | ]); contradiction.
  - destruct (rates_answers w b) as [resp [H _]]. now exists resp.
  - intros b'. destruct (rates_answers w b) as [resp [H _]].
    unfold bind. destruct (rates b w) as [t c]. cbn [snd] in H. subst c.
    destruct (rates b' w) as [t' c']. reflexivity.
Qed.

(** ** Determinism and the key *)

(** What the rates handler observes of the world: whether the key is
    set, the upstream's answer to its one call, and the clock. *)
Lemma rates_observes (w1 w2 : World) (b : Js.value) :
  key_configured w1 = key_configured w2 ->
  upstream w1 (apiUrl b) fetch_init = upstream w2 (apiUrl b) fetch_init ->
  now w1 = now w2 ->
  rates b w1 = rates b w2.
Proof.
  unfold key_configured, apiKey. intros Hkey Hup Hnow. run.
  repeat (try rewrite Hkey; try rewrite Hup; branch);
    try rewrite Hnow; reflexivity.
Qed.

Lemma key_configured_set_key (w : World) (key : string) :
  key <> EmptyString -> key_configured (set_key w key) = true.
Proof.
  intros H. unfold key_configured, apiKey, env_value, set_key.
  cbn [env]. rewrite String.eqb_refl. cbn [Js.truthy].
  destruct key; [ contradiction | reflexivity ].
Qed.

(** C10. Two identical rates requests at two different times, against
    the same upstream and the same configuration, leave the same trace
    and get the same status and the same body up to the [date] field;
    the bodies differ at most when both are rate responses whose [date]
    is the current time.  With any two non-empty values of the key the
    trace and the response are the same.  Whatever the key, the only
    outbound request is the one for the URL built from the base currency
    with the [Accept] header, neither of which is computed from the
    key. *)
Theorem rates_deterministic (w : World) (b : Js.value) :
  (forall t', exists r r',
      snd (rates b w) = Js.Normal r
      /\ snd (rates b (set_now w t')) = Js.Normal r'
      /\ fst (rates b (set_now w t')) = fst (rates b w)
      /\ code r' = code r
      /\ without_date (body r') = without_date (body r)
      /\ (body r' = body r
          \/ exists base data_rates,
               body r = rate_response base
                          (Js.VStr (Date.toISOString (now w))) data_rates
               /\ body r' = rate_response base
                              (Js.VStr (Date.toISOString t')) data_rates))
  /\ (forall k1 k2,
        k1 <> EmptyString -> k2 <> EmptyString ->
        rates b (set_key w k1) = rates b (set_key w k2))
  /\ (forall key url i,
        In (Outbound url i) (fst (rates b (set_key w key))) ->
        url = "https://open.er-api.com/v6/latest/" ++ Js.template b
        /\ i = Fetch.mkInit "GET" [("Accept", "application/json")]).
Proof.
  repeat split.
  - intros t'. unfold set_now. run.
    repeat (unfold env_value; cbn [env upstream now]; branch).
    all: cbn [now].
    all: do 2 eexists; (split; [ reflexivity | ]); (split; [ reflexivity | ]).
    all: repeat split; try (left; reflexivity).
    all: right; do 2 eexists; split; reflexivity.
  - intros k1 k2 H1 H2. apply rates_observes; try reflexivity.
    now rewrite !key_configured_set_key.
  - revert H. run. repeat branch; cbn [In]; intros H;
      repeat (destruct H as [ H | H ]; [ try discriminate H | ]);
      try contradiction; now injection H.
  - revert H. run. repeat branch; cbn [In]; intros H;
      repeat (destruct H as [ H | H ]; [ try discriminate H | ]);
      try contradiction; now injection H.
Qed.

(** The example of C10: two keys, one answer. *)
Lemma rates_key_value_example :
  rates (Js.VStr "USD") (set_key world_usd "first")
  = rates (Js.VStr "USD") (set_key world_usd "second").
Proof.
  destruct (rates_deterministic world_usd (Js.VStr "USD")) as [_ [H _]].
  apply (H "first" "second"); discriminate.
Defined.

(** The example of C9: with the upstream down the one call is not
    repeated. *)
Lemma single_call_example :
  outbound_calls (fst (rates (Js.VStr "USD") world_down)) = 1
  /\ (Outbound "https://open.er-api.com/v6/latest/USD" fetch_init
      = Outbound (apiUrl (Js.VStr "USD")) fetch_init
      \/ exists to args,
           Outbound "https://open.er-api.com/v6/latest/USD" fetch_init
           = Log to args).
Proof.
  split; [ reflexivity | ].
  destruct (rates_single_call world_down (Js.VStr "USD")) as [_ [H _]].
  apply H. right. left. reflexivity.
Defined.

(** ** Further properties of the handlers *)

(** A valid code is truthy. *)
Lemma valid_code_truthy (b : Js.value) :
  invalid_base b = false -> Js.truthy b = true.
Proof.
  intros H. destruct (valid_code_is_string b H) as [s [-> L]].
  destruct s; [ discriminate L | reflexivity ].
Qed.

(** A status that is not ok is not 200. *)
Lemma not_ok_not_200 (r : Fetch.response) :
  Fetch.ok r = false -> (Fetch.status r =? 200)%Z = false.
Proof.
  unfold Fetch.ok. destruct (Z.eqb_spec (Fetch.status r) 200) as [ -> | _ ].
  - discriminate.
  - reflexivity.
Qed.

(** A truthy field read means the value read from is an object. *)
Lemma get_truthy_object (data v : Js.value) (k : string) :
  Js.get data k = Js.Normal v ->
  Js.truthy v = true ->
  exists fields, data = Js.VObj fields.
Proof.
  destruct data; cbn; intros H T; try discriminate H;
    try (injection H as <-; discriminate T).
  now exists fields.
Qed.

(** The number of outbound calls of a rates request. *)
Lemma rates_call_count (w : World) (b : Js.value) :
  outbound_calls (fst (rates b w))
  = if is_code b && key_configured w then 1 else 0.
Proof.
  unfold key_configured, apiKey. run. rewrite invalid_base_is_code.
  destruct (is_code b); cbn [negb andb]; run; [ | reflexivity ].
  repeat branch; reflexivity.
Qed.

(** X1. Only a rates request with a three-character code in a world with
    the key set calls the upstream, and it calls it exactly once; every
    other dispatched request makes no outbound call. *)
Theorem outbound_calls_exact (w : World) (d : Dispatch) :
  outbound_calls (fst (app d w))
  = match d with
    | ToRates b => if is_code b && key_configured w then 1 else 0
    | _ => 0
    end.
Proof.
  destruct d as [ b | | | err ]; try reflexivity.
  apply rates_call_count.
Qed.

(** X2. The HTTP status and the [success] flag of the body never disagree:
    the status of an answer is in 200..299 exactly when its body says
    [success: true]. *)
Theorem status_agrees_with_flag (w : World) (d : Dispatch) :
  exists resp,
    snd (app d w) = Js.Normal resp
    /\ is_2xx (code resp) = succeeded (body resp).
Proof.
  destruct d as [ b | | | err ];
    try (eexists; split; reflexivity).
  run. repeat branch.
  all: eexists; (split; [ reflexivity | ]); cbn [code body].
  all: try reflexivity.
  all: match goal with
       | H : Fetch.ok ?r = false |- is_2xx (Fetch.status ?r) = _ =>
           change (is_2xx (Fetch.status r)) with (Fetch.ok r); rewrite H
       end; reflexivity.
Qed.

(** X3. The status of the answer to a rates request is 200, 400 or 500, or
    else it is the status of an upstream reply outside 200..299. *)
Theorem rates_status_range (w : World) (b : Js.value) :
  exists resp,
    snd (rates b w) = Js.Normal resp
    /\ (code resp = 200%Z \/ code resp = 400%Z \/ code resp = 500%Z
        \/ exists r,
             upstream w (apiUrl b) fetch_init = Js.Normal r
             /\ Fetch.ok r = false
             /\ code resp = Fetch.status r).
Proof.
  run. repeat branch.
  all: eexists; (split; [ reflexivity | ]); cbn [code].
  all: try (left; reflexivity).
  all: try (right; left; reflexivity).
  all: try (right; right; left; reflexivity).
  all: right; right; right; eexists; repeat split; eassumption.
Qed.

(** X4. A rates request writes one [console.error] line when it fails after
    validation, and none when it succeeds or when the code is invalid;
    a request with an invalid code writes no log line at all, on either
    stream, and calls nothing: its trace is empty. *)
Theorem rates_error_logging (w : World) (b : Js.value) :
  exists resp,
    snd (rates b w) = Js.Normal resp
    /\ stderr_lines (fst (rates b w))
       = (if is_code b && negb (code resp =? 200)%Z then 1 else 0)
    /\ (if is_code b then fst (rates b w) <> [] else fst (rates b w) = []).
Proof.
  run. rewrite invalid_base_is_code.
  destruct (is_code b); cbn [negb andb]; run;
    [ | eexists; repeat split; reflexivity ].
  repeat branch.
  all: eexists; (split; [ reflexivity | ]); cbn [code stderr_lines].
  all: split; [ | discriminate ].
  all: try reflexivity.
  all: match goal with
       | H : Fetch.ok ?r = false |- _ => rewrite (not_ok_not_200 r H)
       end; reflexivity.
Qed.

(** X5. Status 200 is sent on the success path only.  When a rates request
    is answered with status 200, the code was a three-character string,
    the key was set, and the upstream replied 2xx with a payload object
    whose [result] is not ["error"] and whose [rates] is truthy; the
    body is the reshaped payload. *)
Theorem rates_success_only_if (w : World) (b : Js.value) (resp : HttpResponse) :
  snd (rates b w) = Js.Normal resp ->
  code resp = 200%Z ->
  is_code b = true
  /\ key_configured w = true
  /\ exists r fields,
       upstream w (apiUrl b) fetch_init = Js.Normal r
       /\ Fetch.ok r = true
       /\ Fetch.json r = Js.Normal (Js.VObj fields)
       /\ Js.strict_eq_str (Js.field fields "result") "error" = false
       /\ Js.truthy (Js.field fields "rates") = true
       /\ body resp
          = rate_response
              (Js.or (Js.field fields "base_code") b)
              (if Js.truthy (Js.field fields "time_last_update_utc")
               then Js.field fields "time_last_update_utc"
               else Js.VStr (Date.toISOString (now w)))
              (Js.field fields "rates").
Proof.
  unfold key_configured, apiKey. run. rewrite invalid_base_is_code.
  destruct (is_code b); cbn [negb]; run;
    [ | intros H; injection H as <-; discriminate ].
  repeat branch.
  all: intros H C; injection H as <-; cbn [code] in C; try discriminate C.
  all: try match goal with
       | H : Fetch.ok ?r = false, C : Fetch.status ?r = _ |- _ =>
           unfold Fetch.ok in H; rewrite C in H; discriminate H
       end.
  all: match goal with
       | G : Js.get ?data "rates" = Js.Normal ?v, T : Js.truthy ?v = true |- _ =>
           destruct (get_truthy_object data v "rates" G T) as [fields ->]
       end.
  all: repeat match goal with
       | G : Js.get (Js.VObj _) _ = Js.Normal _ |- _ =>
           cbn [Js.get] in G; injection G as <-
       end.
  all: repeat split; cbn [body].
  all: do 2 eexists; repeat split; try eassumption.
  all: match goal with
       | H : Js.truthy (Js.field _ "time_last_update_utc") = _ |- _ =>
           rewrite H
       end; reflexivity.
Qed.

Lemma rates_success_only_if_example :
  is_code (Js.VStr "USD") = true /\ key_configured world_usd = true.
Proof.
  destruct (rates_success_only_if world_usd (Js.VStr "USD")
              (mkHttp 200 (rate_response (Js.VStr "USD")
                 (Js.VStr "2024-01-15T12:00:00.123Z")
                 (Js.VObj [("EUR", Js.VNum 0.9)])))
              eq_refl eq_refl) as [H1 [H2 _]].
  split; assumption.
Defined.

(** X6. In the object that the rates handler hands to [res.json] with
    status 200, the values of [base], [date] and [rates] are all truthy
    JavaScript values: each is the upstream's own truthy value or, for
    [base] and [date], the fallback.  How Express then serialises a
    value is not part of the statement. *)
Theorem rates_success_fields (w : World) (b : Js.value) (resp : HttpResponse) :
  snd (rates b w) = Js.Normal resp ->
  code resp = 200%Z ->
  Js.truthy (body_field (body resp) "base") = true
  /\ Js.truthy (body_field (body resp) "date") = true
  /\ Js.truthy (body_field (body resp) "rates") = true.
Proof.
  run. repeat branch.
  all: intros H C; injection H as <-; cbn [code] in C; try discriminate C.
  all: try match goal with
       | H : Fetch.ok ?r = false, C : Fetch.status ?r = _ |- _ =>
           unfold Fetch.ok in H; rewrite C in H; discriminate H
       end.
  all: cbv [body body_field Js.field];
    cbn [Js.lookup String.eqb Ascii.eqb Bool.eqb].
  all: repeat split; try assumption; try apply toISOString_truthy.
  all: unfold Js.or;
    match goal with
    | |- Js.truthy (if Js.truthy ?x then _ else _) = true =>
        destruct (Js.truthy x) eqn:?; [ assumption | ]
    end;
    now apply valid_code_truthy.
Qed.

Lemma rates_success_fields_example :
  Js.truthy (Js.VStr "USD") = true
  /\ Js.truthy (Js.VStr "2024-01-15T12:00:00.123Z") = true
  /\ Js.truthy (Js.VObj [("EUR", Js.VNum 0.9)]) = true.
Proof.
  exact (rates_success_fields world_usd (Js.VStr "USD")
           (mkHttp 200 (rate_response (Js.VStr "USD")
              (Js.VStr "2024-01-15T12:00:00.123Z")
              (Js.VObj [("EUR", Js.VNum 0.9)])))
           eq_refl eq_refl).
Defined.

(** ** The reply's body *)

Section Two_replies.

Variables (w : World) (b : Js.value).
Variable u : string -> Fetch.init -> Js.completion Fetch.response.
Variables r r' : Fetch.response.
Hypothesis replied : upstream w (apiUrl b) fetch_init = Js.Normal r.
Hypothesis replied' : u (apiUrl b) fetch_init = Js.Normal r'.

(** X7. Of a 2xx reply the handler uses the parsed payload and nothing
    else: two 2xx replies with the same payload, whatever their status
    lines and raw texts, get the same trace and the same answer. *)
Theorem ok_reply_only_payload :
  Fetch.ok r = true ->
  Fetch.ok r' = true ->
  Fetch.json r' = Fetch.json r ->
  rates b (set_upstream w u) = rates b w.
Proof.
  intros ok ok' same. unfold set_upstream. run.
  destruct (invalid_base b); run; [ reflexivity | ].
  unfold env_value. cbn [env upstream now].
  destruct (Js.truthy match env w "EXCHANGE_RATE_API_KEY" with
                      | Some s => Js.VStr s
                      | None => Js.VUndefined
                      end); run; [ | reflexivity ].
  cbn [env upstream now]. rewrite replied, replied'. run.
  rewrite ok, ok'. run. rewrite same.
  repeat branch; reflexivity.
Qed.

(** X8. The text read from the body of a reply outside 200..299 goes to
    the log and nowhere else: two such replies with the same status and
    status text, whose bodies can both be read, get the same answer
    whatever the two texts are. *)
Theorem error_body_not_forwarded (errorText errorText' : string) :
  Fetch.ok r = false ->
  Fetch.ok r' = false ->
  Fetch.status r' = Fetch.status r ->
  Fetch.statusText r' = Fetch.statusText r ->
  Fetch.text r = Js.Normal errorText ->
  Fetch.text r' = Js.Normal errorText' ->
  snd (rates b (set_upstream w u)) = snd (rates b w).
Proof.
  intros ok ok' same_status same_text read read'. unfold set_upstream. run.
  destruct (invalid_base b); run; [ reflexivity | ].
  unfold env_value. cbn [env upstream now].
  destruct (Js.truthy match env w "EXCHANGE_RATE_API_KEY" with
                      | Some s => Js.VStr s
                      | None => Js.VUndefined
                      end); run; [ | reflexivity ].
  cbn [env upstream now]. rewrite replied, replied'. run.
  rewrite ok, ok'. run. rewrite read, read'. run.
  now rewrite same_status, same_text.
Qed.

End Two_replies.

Lemma ok_reply_only_payload_example :
  rates (Js.VStr "USD")
    (set_upstream world_usd (upstream_always (Js.Normal usd_reply_203)))
  = rates (Js.VStr "USD") world_usd.
Proof.
  exact (ok_reply_only_payload world_usd (Js.VStr "USD")
           (upstream_always (Js.Normal usd_reply_203)) usd_reply usd_reply_203
           eq_refl eq_refl eq_refl eq_refl eq_refl).
Defined.

Lemma error_body_not_forwarded_example :
  snd (rates (Js.VStr "USD")
         (set_upstream (world_with (Js.Normal busy_json_reply))
            (upstream_always (Js.Normal busy_html_reply))))
  = snd (rates (Js.VStr "USD") (world_with (Js.Normal busy_json_reply))).
Proof.
  exact (error_body_not_forwarded (world_with (Js.Normal busy_json_reply))
           (Js.VStr "USD") (upstream_always (Js.Normal busy_html_reply))
           busy_json_reply busy_html_reply eq_refl eq_refl
           _ _ eq_refl eq_refl eq_refl eq_refl eq_refl eq_refl).
Defined.

Section Broken_replies.

Variables (w : World) (b : Js.value) (r : Fetch.response).
Hypothesis code_ok : is_code b = true.
Hypothesis key_ok : key_configured w = true.
Hypothesis replied : upstream w (apiUrl b) fetch_init = Js.Normal r.

(** X9. When the body of a reply outside 200..299 cannot be read, the
    upstream's status is not forwarded: the [catch] block answers with
    status 500 and the message of the read error. *)
Theorem unreadable_error_body (error : Js.Error) :
  Fetch.ok r = false ->
  Fetch.text r = Js.Thrown error ->
  rates b w
  = ([log_fetching b; the_call b; log_caught error],
     Js.Normal (mkHttp 500 (Js.VObj
       [("success", Js.VBool false);
        ("error", Js.VStr ("Internal server error: " ++ Js.message error))]))).
Proof.
  intros not_ok broken.
  past_checks code_ok key_ok. rewrite replied. run.
  rewrite not_ok. run. rewrite broken. reflexivity.
Qed.

(** X10. When the body of a 2xx reply is no JSON, the [catch] block answers
    with status 500 and the message of the parse error, after the one
    call. *)
Theorem unparsable_body (error : Js.Error) :
  Fetch.ok r = true ->
  Fetch.json r = Js.Thrown error ->
  rates b w
  = ([log_fetching b; the_call b; log_caught error],
     Js.Normal (mkHttp 500 (Js.VObj
       [("success", Js.VBool false);
        ("error", Js.VStr ("Internal server error: " ++ Js.message error))]))).
Proof.
  intros ok broken.
  past_checks code_ok key_ok. rewrite replied. run.
  rewrite ok. run. rewrite broken. reflexivity.
Qed.

End Broken_replies.

Lemma unreadable_error_body_example :
  snd (rates (Js.VStr "USD") world_cut)
  = Js.Normal (mkHttp 500 (error_body (Js.VStr
      "Internal server error: Invalid response body while trying to fetch https://open.er-api.com/v6/latest/USD: Premature close"))).
Proof.
  exact (f_equal snd
           (unreadable_error_body world_cut (Js.VStr "USD") cut_reply
              eq_refl eq_refl eq_refl cut_off eq_refl eq_refl)).
Defined.

Lemma unparsable_body_example :
  snd (rates (Js.VStr "USD") world_html)
  = Js.Normal (mkHttp 500 (error_body (Js.VStr
      "Internal server error: invalid json response body at https://open.er-api.com/v6/latest/USD reason: Unexpected token < in JSON at position 0"))).
Proof.
  exact (f_equal snd
           (unparsable_body world_html (Js.VStr "USD") html_reply
              eq_refl eq_refl eq_refl not_json eq_refl eq_refl)).
Defined.

(** ** The startup diagnostics *)

(** The trace of the startup callback, by whether the key is set. *)
Lemma listening_trace (w : World) :
  exists port,
    fst (listening w)
    = List.app
      [Log Stdout [LStr "==========================================="];
       Log Stdout [LStr "Currency Converter Backend Server"];
       Log Stdout [LStr "==========================================="];
       Log Stdout [LStr ("Server running on http://localhost:" ++ port)];
       Log Stdout [LStr ("API endpoint: http://localhost:" ++ port
                         ++ "/api/rates/:baseCurrency")];
       Log Stdout [LStr ("Health check: http://localhost:" ++ port
                         ++ "/api/health")]]
      (List.app
         (if key_configured w then [log_key_present]
          else [log_key_warning;
                Log Stdout [LStr "  The API may work without a key, or you may need to set EXCHANGE_RATE_API_KEY"]])
         [Log Stdout [LStr "==========================================="]]).
Proof.
  exists (if Js.truthy (env_value w "PORT")
          then Js.template (env_value w "PORT") else "3000").
  unfold key_configured, apiKey, listening, PORT, bind, ret, getenv,
    console_log, emit.
  cbn [fst snd].
  destruct (Js.truthy (env_value w "EXCHANGE_RATE_API_KEY")); reflexivity.
Qed.

(** X11. The startup callback and the rates handler test the key the same
    way: the startup trace has the line that the key is configured
    exactly when a request with a three-character code is sent on to
    the upstream, and it has the warning exactly when such a request
    makes no call.  The callback itself calls nothing. *)
Theorem startup_reports_key (w : World) (b : Js.value) :
  is_code b = true ->
  (In log_key_present (fst (listening w))
   <-> outbound_calls (fst (rates b w)) = 1)
  /\ (In log_key_warning (fst (listening w))
      <-> outbound_calls (fst (rates b w)) = 0)
  /\ outbound_calls (fst (listening w)) = 0.
Proof.
  intros Hcode. rewrite rates_call_count, Hcode. cbn [andb].
  destruct (listening_trace w) as [port ->].
  unfold log_key_present, log_key_warning.
  destruct (key_configured w); cbn [List.app In outbound_calls append].
  - repeat split; try reflexivity; try discriminate.
    + intros _. do 6 right. left. reflexivity.
    + intros H.
      repeat (destruct H as [ H | H ]; [ discriminate H | ]). contradiction.
  - repeat split; try reflexivity; try discriminate.
    + intros H.
      repeat (destruct H as [ H | H ]; [ discriminate H | ]). contradiction.
    + intros _. do 6 right. left. reflexivity.
Qed.

Lemma startup_reports_key_example :
  In log_key_warning (fst (listening world_keyless))
  /\ In log_key_present (fst (listening world_usd)).
Proof.
  split.
  - apply (startup_reports_key world_keyless (Js.VStr "USD") eq_refl).
    reflexivity.
  - apply (startup_reports_key world_usd (Js.VStr "USD") eq_refl).
    reflexivity.
Defined.

(** ** The timestamps *)

(** The calendar fields of a day between 0000-01-01 and 9999-12-31. *)
Lemma civil_bounds (days : Z) :
  (-719528 <= days <= 2932896)%Z ->
  let '(y, m, d) := Date.civil days in
  (0 <= y <= 9999 /\ 1 <= m <= 12 /\ 1 <= d <= 31)%Z.
Proof.
  intros R. unfold Date.civil.
  set (z := (days + 719468)%Z).
  set (era := (z / 146097)%Z).
  set (doe := (z mod 146097)%Z).
  assert (0 <= doe < 146097)%Z by (apply Z.mod_pos_bound; lia).
  assert (z = 146097 * era + doe)%Z by (apply Z.div_mod; lia).
  assert (-1 <= era <= 24)%Z by lia.
  set (yoe := ((doe - doe / 1460 + doe / 36524 - doe / 146096) / 365)%Z).
  set (doy := (doe - (365 * yoe + yoe / 4 - yoe / 100))%Z).
  assert (0 <= yoe <= 399)%Z by (subst yoe; Z.div_mod_to_equations; lia).
  assert (0 <= doy <= 365)%Z by (subst doy yoe; Z.div_mod_to_equations; lia).
  set (mp := ((5 * doy + 2) / 153)%Z).
  assert (0 <= mp <= 11)%Z by (subst mp; Z.div_mod_to_equations; lia).
  assert (1 <= doy - (153 * mp + 2) / 5 + 1 <= 31)%Z
    by (subst mp; Z.div_mod_to_equations; lia).
  destruct (mp <? 10)%Z eqn:E; [ apply Z.ltb_lt in E | apply Z.ltb_ge in E ].
  - replace (mp + 3 <=? 2)%Z with false by (symmetry; apply Z.leb_gt; lia).
    repeat split; try lia.
    all: subst mp doy yoe; Z.div_mod_to_equations; lia.
  - replace (mp - 9 <=? 2)%Z with true by (symmetry; apply Z.leb_le; lia).
    repeat split; try lia.
    all: subst mp doy yoe; Z.div_mod_to_equations; lia.
Qed.

(** A remainder modulo ten is rendered as a decimal digit. *)
Lemma digit_is_digit (n : Z) : is_digit (Date.digit (n mod 10)) = true.
Proof.
  assert (B : (0 <= n mod 10 < 10)%Z) by (apply Z.mod_pos_bound; lia).
  set (d := (n mod 10)%Z) in *.
  assert (C : (d = 0 \/ d = 1 \/ d = 2 \/ d = 3 \/ d = 4 \/ d = 5 \/ d = 6
               \/ d = 7 \/ d = 8 \/ d = 9)%Z) by lia.
  repeat (destruct C as [ -> | C ]; [ reflexivity | ]).
  subst d. rewrite C. reflexivity.
Qed.

(** X12. For a clock between the years 0000 and 9999, the timestamp of the
    health probe is a 24-character ISO-8601 string of the layout
    YYYY-MM-DDTHH:mm:ss.sssZ, and so is the [date] a rate response falls
    back to. *)
Theorem health_timestamp_layout (w : World) :
  (-62167219200000 <= now w < 253402300800000)%Z ->
  exists stamp,
    snd (health w)
    = Js.Normal (mkHttp 200 (Js.VObj
        [("success", Js.VBool true);
         ("message", Js.VStr "Currency converter API is running");
         ("timestamp", Js.VStr stamp)]))
    /\ snd (new_Date_toISOString w) = Js.Normal (Js.VStr stamp)
    /\ has_layout iso_layout stamp = true
    /\ String.length stamp = 24.
Proof.
  intros R. exists (Date.toISOString (now w)).
  split; [ reflexivity | ]. split; [ reflexivity | ].
  unfold Date.toISOString.
  assert (D : (-719528 <= now w / Date.msPerDay <= 2932896)%Z)
    by (unfold Date.msPerDay; Z.div_mod_to_equations; lia).
  pose proof (civil_bounds _ D) as B.
  destruct (Date.civil (now w / Date.msPerDay)) as [[y m] d].
  destruct B as [[Y0 Y1] _].
  unfold Date.year_string.
  apply Z.leb_le in Y0, Y1. rewrite Y0, Y1. cbn [andb].
  cbn [Date.pad append]. split; [ | reflexivity ].
  cbn [has_layout iso_layout Ascii.eqb Bool.eqb].
  rewrite !digit_is_digit. reflexivity.
Qed.

Lemma health_timestamp_layout_example :
  has_layout iso_layout "2024-01-15T12:00:00.123Z" = true.
Proof.
  destruct (health_timestamp_layout world_usd) as [stamp [H [_ [L _]]]].
  - split; [ discriminate | reflexivity ].
  - injection H as <-. exact L.
Defined.

(** ** The value of the key *)

(** X13. No handler and no startup line shows the value of the key: with any
    two non-empty keys every dispatched request leaves the same trace
    and gets the same answer, and the startup callback writes the same
    lines. *)
Theorem key_value_never_shown (w : World) (k1 k2 : string) :
  k1 <> EmptyString ->
  k2 <> EmptyString ->
  (forall d, app d (set_key w k1) = app d (set_key w k2))
  /\ listening (set_key w k1) = listening (set_key w k2).
Proof.
  intros H1 H2.
  pose proof (key_configured_set_key w k1 H1) as K1.
  pose proof (key_configured_set_key w k2 H2) as K2.
  split.
  - intros [ b | | | err ]; try reflexivity.
    apply rates_observes; try reflexivity. now rewrite K1, K2.
  - unfold key_configured, apiKey in K1, K2.
    unfold listening, PORT, bind, ret, getenv, console_log, emit.
    rewrite K1, K2. reflexivity.
Qed.

Lemma key_value_never_shown_example :
  listening (set_key world_keyless "first")
  = listening (set_key world_keyless "second").
Proof.
  apply (key_value_never_shown world_keyless "first" "second");
    discriminate.
Defined.
